(** * bot2-telegram: the single-instance lock and the lifecycle of [main.py]

    A shallow embedding of [src/main.py].  The program is a Python script
    that guards a long-polling Telegram bot with a PID file
    ([bot_session.lock]).  The embedding keeps the structure of the source:

    - the filesystem is a finite map from paths to files;
    - every method of [TelegramBot] is a computation in a small
      state-and-exception monad over the [world] (filesystem, log, the
      ordered trace of external actions and the fields of the bot object);
    - what the program cannot decide by itself (the environment variables,
      the process id, the answer of [os.kill(pid, 0)], the failures of the
      Telegram library) is read from an [env] record.                      *)

From Stdlib Require Import ZArith String Ascii List Bool Lia.
From Stdlib Require Import DecimalString DecimalZ DecimalPos.
From stdpp Require Import base option gmap strings.

Open Scope Z_scope.
Open Scope string_scope.

(** ** Text: [str.strip], [int] and [str] of Python

    A [string] is a sequence of characters with code points below 256.
    In that range the decimal digits of Python are ['0'] .. ['9'] and the
    white space of [str.isspace] is 0x09-0x0D, 0x1C-0x1F, 0x20, 0x85, 0xA0. *)

Module PyText.

Definition is_space (c : ascii) : bool :=
  let n := nat_of_ascii c in
  ((9 <=? n)%nat && (n <=? 13)%nat)
  || ((28 <=? n)%nat && (n <=? 32)%nat)
  || (n =? 133)%nat || (n =? 160)%nat.

Definition digit_val (c : ascii) : option Z :=
  let n := nat_of_ascii c in
  if ((48 <=? n)%nat && (n <=? 57)%nat)%bool
  then Some (Z.of_nat (n - 48)) else None.

Definition is_underscore (c : ascii) : bool := (nat_of_ascii c =? 95)%nat.

(** [s.lstrip()] *)
Fixpoint lstrip (s : string) : string :=
  match s with
  | String c s' => if is_space c then lstrip s' else s
  | EmptyString => EmptyString
  end.

(** [s.rstrip()]: a character is dropped when it is white space and
    everything after it has been dropped. *)
Fixpoint rstrip (s : string) : string :=
  match s with
  | String c s' =>
      match rstrip s' with
      | EmptyString => if is_space c then EmptyString else String c EmptyString
      | r => String c r
      end
  | EmptyString => EmptyString
  end.

(** [s.strip()] *)
Definition strip (s : string) : string := rstrip (lstrip s).

(** The digits of a base-10 literal, most significant first.  An
    underscore is accepted between two digits only ([prev_us] records that
    the previous character was one). *)
Fixpoint parse_digits (s : string) (prev_us : bool) (acc : Z) : option Z :=
  match s with
  | EmptyString => if prev_us then None else Some acc
  | String c s' =>
      if is_underscore c
      then (if prev_us then None else parse_digits s' true acc)
      else match digit_val c with
           | Some d => parse_digits s' false (10 * acc + d)
           | None => None
           end
  end.

Definition parse_unsigned (s : string) : option Z :=
  match s with
  | EmptyString => None
  | String c _ => if is_underscore c then None else parse_digits s false 0
  end.

Definition parse_signed (s : string) : option Z :=
  match s with
  | String "+"%char s' => parse_unsigned s'
  | String "-"%char s' => Z.opp <$> parse_unsigned s'
  | _ => parse_unsigned s
  end.

(** [int(s)] for a [str] argument in base 10: [None] stands for
    [ValueError].  [int] ignores surrounding white space by itself.  The
    bound of the interpreter on the length of a literal
    ([sys.int_max_str_digits]) is left out. *)
Definition int (s : string) : option Z := parse_signed (strip s).

(** [str(n)] for an [int]: the decimal rendering, ["-"] first when
    negative, no leading zero. *)
Definition str (n : Z) : string := NilZero.string_of_int (Z.to_int n).

(** The value of a digit sequence read after [acc]. *)
Fixpoint uint_value (d : Decimal.uint) (acc : Z) : Z :=
  match d with
  | Decimal.Nil => acc
  | Decimal.D0 d' => uint_value d' (10 * acc + 0)
  | Decimal.D1 d' => uint_value d' (10 * acc + 1)
  | Decimal.D2 d' => uint_value d' (10 * acc + 2)
  | Decimal.D3 d' => uint_value d' (10 * acc + 3)
  | Decimal.D4 d' => uint_value d' (10 * acc + 4)
  | Decimal.D5 d' => uint_value d' (10 * acc + 5)
  | Decimal.D6 d' => uint_value d' (10 * acc + 6)
  | Decimal.D7 d' => uint_value d' (10 * acc + 7)
  | Decimal.D8 d' => uint_value d' (10 * acc + 8)
  | Decimal.D9 d' => uint_value d' (10 * acc + 9)
  end.

(** No character of [s] is white space. *)
Fixpoint no_space (s : string) : bool :=
  match s with
  | EmptyString => true
  | String c s' => negb (is_space c) && no_space s'
  end.

End PyText.

(** ** Exceptions, files, log records and external actions *)

Inductive errno := ENOENT | EACCES | ESRCH | EPERM.

(** The exceptions the program meets.  All of them are subclasses of
    [Exception]; [Conflict] is a subclass of [TelegramError].  The source
    rebinds SIGINT to [signal_handler] (line 201), so [KeyboardInterrupt]
    is not among them and the two [except KeyboardInterrupt] clauses have
    no counterpart here. *)
Inductive exn :=
| ValueError
| OSError (e : errno)
| OverflowError
| AttributeError
| RuntimeError
| TelegramError
| Conflict.

Definition is_OSError (e : exn) : bool :=
  match e with OSError _ => true | _ => false end.
Definition is_ValueError (e : exn) : bool :=
  match e with ValueError => true | _ => false end.
Definition is_Conflict (e : exn) : bool :=
  match e with Conflict => true | _ => false end.

(** A regular file: its text, or a file that [open]/[read] refuses
    (no read permission). *)
Inductive file := Unreadable | Text (content : string).

(** Calls into the Telegram library and into asyncio that may fail. *)
Inductive lib_call :=
| Build | DeleteWebhook | Initialize | AppStart | StartPolling
| UpdaterStop | AppStop | AppShutdown
| ShutdownAsyncgens | LoopClose.

(** External actions, in the order the program performs them. *)
Inductive event :=
| FsWrite (path : string) (content : string)
| FsRemove (path : string)
| Lib (c : lib_call)
| Reply (chat : Z) (text : string).

Inductive level := INFO | WARNING | ERROR.

(** One constructor per [logger] call of the source (line in comment). *)
Inductive log_msg :=
| TokenMissing                 (* 34 *)
| SessionFound (pid : Z)       (* 56 *)
| SessionReadError (e : exn)   (* 63 *)
| AlreadyRunning               (* 83 *)
| Starting                     (* 90 *)
| WebhookDeleted               (* 103 *)
| WebhookFailed (e : exn)      (* 105 *)
| PollingStart                 (* 114 *)
| NowRunning                   (* 119 *)
| ConflictError (e : exn)      (* 126 *)
| StartFailed (e : exn)        (* 130 *)
| Stopping                     (* 136 *)
| StoppedOk                    (* 148 *)
| StopFailed (e : exn)         (* 150 *)
| UpdateError (e : exn)        (* 165 *)
| ApologyFailed (e : exn)      (* 174 *)
| SignalReceived               (* 188 *)
| MainFailed (e : exn)         (* 209 *)
| ScriptFailed (e : exn)       (* 222 *)
| AsyncgensFailed (e : exn)    (* 227 *)
| LoopCloseFailed (e : exn).   (* 232 *)

Definition level_of (m : log_msg) : level :=
  match m with
  | Starting | WebhookDeleted | PollingStart | NowRunning
  | Stopping | StoppedOk | SignalReceived => INFO
  | SessionFound _ | SessionReadError _ | WebhookFailed _ => WARNING
  | _ => ERROR
  end.

(** ** Telegram objects *)

Record message := { chat : Z; text : option string }.

Record update := {
  upd_message : option message;            (* update.message *)
  effective_message : option message       (* update.effective_message *)
}.

(** The match rule of a registered handler. *)
Inductive rule :=
| CommandHandler (name : string)
| TextNotCommand                           (* filters.TEXT & ~filters.COMMAND *)
| OnError.

(** [self.application]: whether it has an updater, and the handlers
    registered so far (rule, name of the bound method). *)
Record app := {
  updater : bool;
  handlers : list (rule * string)
}.

(** ** The world and the environment

    [fs] holds the files the script itself reads, writes and removes.
    The file [bot.log] of the logging module is represented by [log], and
    the store of the Telegram library by the library calls in [trace]. *)

Record world := {
  fs : gmap string file;        (* the files the script itself opens *)
  log : list log_msg;           (* records given to [logger], oldest first *)
  trace : list event;           (* external actions, oldest first *)
  application : option app;     (* self.application *)
  shutdown_event : bool         (* self.shutdown_event.is_set() *)
}.

Record env := {
  environ : gmap string string;               (* os.environ *)
  getpid : Z;                                 (* os.getpid() *)
  kill0 : Z -> option exn;                    (* os.kill(pid, 0): [None] returns *)
  lib : list event -> event -> option exn;    (* a library call raises, given the trace so far *)
  signalled : bool                            (* SIGINT or SIGTERM arrives during the wait *)
}.

Definition set_fs (f : gmap string file) (w : world) : world :=
  {| fs := f; log := log w; trace := trace w;
     application := application w; shutdown_event := shutdown_event w |}.
Definition add_log (m : log_msg) (w : world) : world :=
  {| fs := fs w; log := log w ++ [m]; trace := trace w;
     application := application w; shutdown_event := shutdown_event w |}.
Definition add_event (ev : event) (w : world) : world :=
  {| fs := fs w; log := log w; trace := trace w ++ [ev];
     application := application w; shutdown_event := shutdown_event w |}.
Definition set_application (a : option app) (w : world) : world :=
  {| fs := fs w; log := log w; trace := trace w;
     application := a; shutdown_event := shutdown_event w |}.
Definition set_shutdown_event (b : bool) (w : world) : world :=
  {| fs := fs w; log := log w; trace := trace w;
     application := application w; shutdown_event := b |}.

(** ** The monad of the program: state, exceptions, and a blocked wait *)

Inductive outcome (A : Type) :=
| Ret (a : A)          (* returns [a] *)
| Raise (e : exn)      (* raises [e] *)
| Hang.                (* suspended for ever *)
Arguments Ret {A} a.
Arguments Raise {A} e.
Arguments Hang {A}.

Definition M (A : Type) : Type := world -> outcome A * world.

Definition ret {A} (a : A) : M A := fun w => (Ret a, w).
Definition raise {A} (e : exn) : M A := fun w => (Raise e, w).
Definition bind {A B} (m : M A) (k : A -> M B) : M B :=
  fun w => match m w with
           | (Ret a, w') => k a w'
           | (Raise e, w') => (Raise e, w')
           | (Hang, w') => (Hang, w')
           end.

Declare Scope py_scope.
Delimit Scope py_scope with py.
Notation "x <- c1 ;; c2" := (bind c1 (fun x => c2))
  (at level 100, c1 at next level, right associativity) : py_scope.
Notation "c1 ;; c2" := (bind c1 (fun _ => c2))
  (at level 100, right associativity) : py_scope.
Open Scope py_scope.

(** [try: m except ...]: [h e] is the body of the first clause that
    matches [e], [None] when no clause does. *)
Definition try_except {A} (m : M A) (h : exn -> option (M A)) : M A :=
  fun w => match m w with
           | (Raise e, w') =>
               match h e with Some k => k w' | None => (Raise e, w') end
           | r => r
           end.

(** [try: m finally: f]: [f] runs when [m] returns or raises; what [f]
    raises replaces the outcome of [m]. *)
Definition try_finally {A} (m : M A) (f : M unit) : M A :=
  fun w => match m w with
           | (Hang, w') => (Hang, w')
           | (r, w') =>
               match f w' with
               | (Ret _, w'') => (r, w'')
               | (Raise e, w'') => (Raise e, w'')
               | (Hang, w'') => (Hang, w'')
               end
           end.

(** [except Exception as e: k e] *)
Definition except_Exception {A} (k : exn -> M A) : exn -> option (M A) :=
  fun e => Some (k e).

(** ** Primitive operations *)

Definition logger (m : log_msg) : M unit := fun w => (Ret tt, add_log m w).

(** [os.path.exists(p)] *)
Definition path_exists (p : string) : M bool :=
  fun w => (Ret (match fs w !! p with Some _ => true | None => false end), w).

(** [os.remove(p)]: removing an existing file succeeds (the directory is
    writable, as it was when the file was created). *)
Definition os_remove (p : string) : M unit :=
  fun w => match fs w !! p with
           | Some _ => (Ret tt, add_event (FsRemove p) (set_fs (delete p (fs w)) w))
           | None => (Raise (OSError ENOENT), w)
           end.

(** [with open(p, "r") as f: f.read()] *)
Definition read_text (p : string) : M string :=
  fun w => match fs w !! p with
           | Some (Text s) => (Ret s, w)
           | Some Unreadable => (Raise (OSError EACCES), w)
           | None => (Raise (OSError ENOENT), w)
           end.

(** [with open(p, "w") as f: f.write(s)] *)
Definition write_text (p : string) (s : string) : M unit :=
  fun w => (Ret tt, add_event (FsWrite p s) (set_fs (<[p := Text s]> (fs w)) w)).

(** [int(s)] *)
Definition py_int (s : string) : M Z :=
  match PyText.int s with
  | Some n => ret n
  | None => raise ValueError
  end.

Definition get_application : M (option app) :=
  fun w => (Ret (application w), w).
Definition put_application (a : option app) : M unit :=
  fun w => (Ret tt, set_application a w).

(** The methods and instance attributes of a [TelegramBot] object. *)
Definition TelegramBot_attributes : list string :=
  [ "application"; "event_loop"; "shutdown_event";
    "__init__"; "check_existing_session"; "create_session_file";
    "remove_session_file"; "start"; "stop";
    "start_command"; "handle_message"; "error_handler" ].

(** [self.<name>] *)
Definition getattr_self (name : string) : M string :=
  if bool_decide (name ∈ TelegramBot_attributes)
  then ret name else raise AttributeError.

(** [self.application.add_handler(...)], [add_error_handler(...)] *)
Definition add_handler (r : rule) (method : string) : M unit :=
  fun w => match application w with
           | Some a =>
               (Ret tt, set_application
                          (Some {| updater := updater a;
                                   handlers := handlers a ++ [(r, method)] |}) w)
           | None => (Raise AttributeError, w)
           end.

Definition SESSION_FILE : string := "bot_session.lock".

(** The texts of the replies, as the bytes of the source literals. *)
Definition GREETING : string :=
  "مرحباً! أنا بوت تيليجرام الجديد. كيف يمكنني مساعدتك؟".
Definition ECHO_PREFIX : string := "لقد تلقيت رسالتك: ".
Definition APOLOGY : string :=
  "عذراً، حدث خطأ أثناء معالجة طلبك. يرجى المحاولة مرة أخرى لاحقاً.".

(** [f"{text}"]: [None] is rendered as the word None. *)
Definition format_text (t : option string) : string :=
  match t with Some s => s | None => "None" end.

(** ** The program *)

Section Program.

Variable E : env.

(** A call into the library: recorded in the trace, and raising when
    the environment says so. *)
Definition external (ev : event) : M unit :=
  fun w => match lib E (trace w) ev with
           | Some e => (Raise e, add_event ev w)
           | None => (Ret tt, add_event ev w)
           end.

Definition call (c : lib_call) : M unit := external (Lib c).

(** [msg.reply_text(s)] *)
Definition reply_text (m : message) (s : string) : M unit :=
  external (Reply (chat m) s).

(** [os.kill(pid, 0)] *)
Definition os_kill0 (pid : Z) : M unit :=
  match kill0 E pid with
  | Some e => raise e
  | None => ret tt
  end.

(** *** The instance lock (lines 47-77) *)

Definition check_existing_session : M bool :=
  ex <- path_exists SESSION_FILE ;;
  if ex then
    try_except
      (content <- read_text SESSION_FILE ;;
       pid <- py_int (PyText.strip content) ;;
       try_except
         (os_kill0 pid ;;
          logger (SessionFound pid) ;;
          ret true)
         (fun e => if is_OSError e
                   then Some (os_remove SESSION_FILE ;; ret false)
                   else None))
      (fun e => if is_ValueError e || is_OSError e
                then Some (logger (SessionReadError e) ;;
                           ex' <- path_exists SESSION_FILE ;;
                           (if ex' then os_remove SESSION_FILE else ret tt) ;;
                           ret false)
                else None)
  else ret false.

Definition create_session_file : M unit :=
  write_text SESSION_FILE (PyText.str (getpid E)).

Definition remove_session_file : M unit :=
  ex <- path_exists SESSION_FILE ;;
  if ex then os_remove SESSION_FILE else ret tt.

(** *** [stop] (lines 134-152) *)

Definition stop : M unit :=
  logger Stopping ;;
  (fun w => (Ret tt, set_shutdown_event true w)) ;;
  a <- get_application ;;
  match a with
  | Some a =>
      try_except
        ((if updater a then call UpdaterStop else ret tt) ;;
         call AppStop ;;
         call AppShutdown ;;
         logger StoppedOk)
        (except_Exception (fun e => logger (StopFailed e)))
  | None => ret tt
  end ;;
  remove_session_file.

(** *** The signal bridge (lines 186-191)

    [asyncio.create_task(bot.stop())] schedules [stop] on the loop; an
    exception of the task stays in the task.  The embedding runs the
    task to its end at the suspension point where the signal is seen. *)
Definition signal_handler : M unit :=
  logger SignalReceived ;;
  try_except stop (except_Exception (fun _ => ret tt)).

(** [await self.shutdown_event.wait()] *)
Definition wait_shutdown : M unit :=
  fun w => if shutdown_event w then (Ret tt, w)
           else if signalled E then signal_handler w
           else (Hang, w).

(** *** [start] (lines 79-132) *)

Definition start : M bool :=
  held <- check_existing_session ;;
  if held then
    logger AlreadyRunning ;;
    ret false
  else
    create_session_file ;;
    try_except
      (logger Starting ;;
       call Build ;;
       put_application (Some {| updater := true; handlers := [] |}) ;;
       try_except
         (call DeleteWebhook ;;
          logger WebhookDeleted)
         (except_Exception (fun e => logger (WebhookFailed e))) ;;
       h <- getattr_self "start_command" ;;
       add_handler (CommandHandler "start") h ;;
       h <- getattr_self "help_command" ;;
       add_handler (CommandHandler "help") h ;;
       h <- getattr_self "handle_message" ;;
       add_handler TextNotCommand h ;;
       h <- getattr_self "error_handler" ;;
       add_handler OnError h ;;
       logger PollingStart ;;
       call Initialize ;;
       call AppStart ;;
       call StartPolling ;;
       logger NowRunning ;;
       wait_shutdown ;;
       ret true)
      (fun e => if is_Conflict e
                then Some (logger (ConflictError e) ;;
                           remove_session_file ;;
                           ret false)
                else Some (logger (StartFailed e) ;;
                           remove_session_file ;;
                           ret false)).

(** *** The handlers (lines 155-174) *)

Definition start_command (u : update) : M unit :=
  match upd_message u with
  | Some m => reply_text m GREETING
  | None => raise AttributeError
  end.

Definition handle_message (u : update) : M unit :=
  match upd_message u with
  | Some m =>
      let response := ECHO_PREFIX ++ format_text (text m) in
      reply_text m response
  | None => raise AttributeError
  end.

Definition error_handler (u : option update) (err : exn) : M unit :=
  logger (UpdateError err) ;;
  match u with
  | Some u' =>
      match effective_message u' with
      | Some m =>
          try_except
            (reply_text m APOLOGY)
            (except_Exception (fun e => logger (ApologyFailed e)))
      | None => ret tt
      end
  | None => ret tt
  end.

(** *** [main] (lines 194-211) *)

(** [bot = TelegramBot()] (lines 42-45).  Storing the bot on
    [signal_handler] and installing the handler (lines 197-202) change
    nothing the embedding observes. *)
Definition new_bot : M unit :=
  fun w => (Ret tt, set_shutdown_event false (set_application None w)).

Definition main : M unit :=
  new_bot ;;
  try_finally
    (try_except
       (start ;; ret tt)
       (except_Exception (fun e => logger (MainFailed e))))
    stop.

(** *** The script (lines 32-35 and 214-232)

    The result is the exit status of the process, [None] when the process
    never exits.  The status is 1 after [sys.exit(1)] and after an
    exception that nothing catches, 0 when the script runs to its end. *)
Definition script : world -> option Z * world :=
  fun w =>
    let BOT_TOKEN := default "" (environ E !! "BOT_TOKEN") in
    if bool_decide (BOT_TOKEN = "") then
      (Some 1, add_log TokenMissing w)
    else
      match
        try_finally
          (try_except main
             (except_Exception (fun e => logger (ScriptFailed e))))
          (try_except (call ShutdownAsyncgens)
             (except_Exception (fun e => logger (AsyncgensFailed e))) ;;
           try_except (call LoopClose)
             (except_Exception (fun e => logger (LoopCloseFailed e)))) w
      with
      | (Ret _, w') => (Some 0, w')
      | (Raise _, w') => (Some 1, w')
      | (Hang, w') => (None, w')
      end.

End Program.

(** ** Concrete worlds and environments

    The scenario of the specification: bot A runs with process id 1000
    and owns the lock file; bot B is started with process id 2000. *)

Definition no_failure : list event -> event -> option exn := fun _ _ => None.

(** Process 1000 exists, no other does. *)
Definition only_1000_alive (pid : Z) : option exn :=
  if (pid =? 1000)%Z then None else Some (OSError ESRCH).

Definition env_B : env :=
  {| environ := {[ "BOT_TOKEN" := "123456:token" ]};
     getpid := 2000;
     kill0 := only_1000_alive;
     lib := no_failure;
     signalled := false |}.

(** The same host without the token. *)
Definition env_no_token : env :=
  {| environ := ∅;
     getpid := 2000;
     kill0 := only_1000_alive;
     lib := no_failure;
     signalled := false |}.

Definition world_with (f : gmap string file) : world :=
  {| fs := f; log := []; trace := [];
     application := None; shutdown_event := false |}.

(** No lock file. *)
Definition world_empty : world := world_with ∅.
(** The lock file of the live process 1000. *)
Definition world_A : world := world_with {[ SESSION_FILE := Text "1000" ]}.
(** The lock file of a process that is gone. *)
Definition world_stale : world := world_with {[ SESSION_FILE := Text "4242" ]}.
(** A world where the bot has been started by process 2000: the
    application is built and the lock file is its own. *)
Definition world_started : world :=
  {| fs := {[ SESSION_FILE := Text "2000" ]}; log := []; trace := [];
     application := Some {| updater := true; handlers := [] |};
     shutdown_event := false |}.

(** The updater refuses to stop (it is not running). *)
Definition updater_not_running (_ : list event) (ev : event) : option exn :=
  match ev with
  | Lib UpdaterStop => Some RuntimeError
  | _ => None
  end.

Definition env_stop_fails : env :=
  {| environ := {[ "BOT_TOKEN" := "123456:token" ]};
     getpid := 2000;
     kill0 := only_1000_alive;
     lib := updater_not_running;
     signalled := false |}.

(** A text message ["foo"] in chat 7, as the update that carries it. *)
Definition msg_foo : message := {| chat := 7; text := Some "foo" |}.
Definition update_foo : update :=
  {| upd_message := Some msg_foo; effective_message := Some msg_foo |}.

(** ** Vocabulary of the statements *)

(** The world after [remove_session_file]. *)
Definition released (w : world) : world :=
  match fs w !! SESSION_FILE with
  | Some _ => add_event (FsRemove SESSION_FILE)
                (set_fs (delete SESSION_FILE (fs w)) w)
  | None => w
  end.

(** The removal [remove_session_file] performs in [w], if any. *)
Definition removal (w : world) : list event :=
  match fs w !! SESSION_FILE with
  | Some _ => [FsRemove SESSION_FILE]
  | None => []
  end.

(** The calls by which [stop] stops the transport, in source order. *)
Definition stop_sequence (a : app) : list lib_call :=
  ((if updater a then [UpdaterStop] else []) ++ [AppStop; AppShutdown])%list.


(** The lock file holds the id of a process that answers the probe. *)
Definition lock_held (E : env) (w : world) : Prop :=
  exists s pid,
    fs w !! SESSION_FILE = Some (Text s) /\
    PyText.int (PyText.strip s) = Some pid /\
    kill0 E pid = None.

(** The process exits with a status other than 0. *)
Definition exits_nonzero (r : option Z * world) : Prop :=
  exists c, r.1 = Some c /\ c <> 0.

(** The required token is set and not empty. *)
Definition has_token (E : env) : Prop :=
  default "" (environ E !! "BOT_TOKEN") <> "".

(** ** Further worlds and environments *)

(** Every character of [s] is white space. *)
Fixpoint all_space (s : string) : bool :=
  match s with
  | EmptyString => true
  | String c s' => PyText.is_space c && all_space s'
  end.

(** The probe is refused: the process exists but belongs to someone
    else ([PermissionError]). *)
Definition env_probe_denied : env :=
  {| environ := {[ "BOT_TOKEN" := "123456:token" ]};
     getpid := 2000;
     kill0 := fun _ => Some (OSError EPERM);
     lib := no_failure;
     signalled := false |}.

(** No process exists; an id that does not fit the argument of
    [os.kill] is refused with [OverflowError]. *)
Definition no_process (pid : Z) : option exn :=
  if (pid <? 2 ^ 31)%Z then Some (OSError ESRCH) else Some OverflowError.

Definition env_probe_overflow : env :=
  {| environ := {[ "BOT_TOKEN" := "123456:token" ]};
     getpid := 2000;
     kill0 := no_process;
     lib := no_failure;
     signalled := false |}.

(** A lock file with a number that is no process id. *)
Definition world_huge : world :=
  world_with {[ SESSION_FILE := Text "99999999999999999999" ]}.

(** Clearing the webhook fails. *)
Definition webhook_fails (_ : list event) (ev : event) : option exn :=
  match ev with
  | Lib DeleteWebhook => Some TelegramError
  | _ => None
  end.

Definition env_webhook_fails : env :=
  {| environ := {[ "BOT_TOKEN" := "123456:token" ]};
     getpid := 2000;
     kill0 := only_1000_alive;
     lib := webhook_fails;
     signalled := false |}.

(** The lock file of process 1000 as a shell writes it, with a final
    newline. *)
Definition world_newline : world :=
  world_with {[ SESSION_FILE := Text (String "1" (String "0" (String "0"
                 (String "0" (String "010" EmptyString))))) ]}.

(** An empty lock file. *)
Definition world_blank : world := world_with {[ SESSION_FILE := Text "" ]}.


(** The events [error_handler] adds for update [u]. *)
Definition apology_events (u : option update) : list event :=
  match u with
  | Some u' =>
      match effective_message u' with
      | Some m => [Reply (chat m) APOLOGY]
      | None => []
      end
  | None => []
  end.

(** ** Sanity checks of the text functions *)

Example strip_ex : PyText.strip (" 12 " ++ String "010"%char "") = "12".
Proof. reflexivity. Qed.

Example int_ex1 : PyText.int "1000" = Some 1000.
Proof. reflexivity. Qed.

Example int_ex2 : PyText.int "1_000" = Some 1000.
Proof. reflexivity. Qed.

Example int_ex3 : PyText.int "12a" = None.
Proof. reflexivity. Qed.

Example int_ex4 : PyText.int "" = None.
Proof. reflexivity. Qed.

Example int_ex5 : PyText.int "-007" = Some (-7).
Proof. reflexivity. Qed.

Example int_ex6 : PyText.int "1__0" = None /\ PyText.int "_1" = None /\ PyText.int "1_" = None.
Proof. repeat split; reflexivity. Qed.

Example str_ex : PyText.str 1000 = "1000" /\ PyText.str 0 = "0" /\ PyText.str (-12) = "-12".
Proof. repeat split; reflexivity. Qed.

(** ** Text: the round trip of [str] and [int] *)

Module PyTextFacts.
Import PyText.

Lemma lstrip_no_space s : no_space s = true -> lstrip s = s.
Proof.
  destruct s as [|c s]; simpl; [reflexivity|].
  intros H. apply andb_true_iff in H as [Hc _].
  apply negb_true_iff in Hc. now rewrite Hc.
Qed.

Lemma rstrip_no_space s : no_space s = true -> rstrip s = s.
Proof.
  induction s as [|c s IH]; simpl; [reflexivity|].
  intros H. apply andb_true_iff in H as [Hc Hs].
  apply negb_true_iff in Hc. rewrite (IH Hs), Hc.
  now destruct s.
Qed.

Lemma strip_no_space s : no_space s = true -> strip s = s.
Proof.
  intros H. unfold strip. rewrite (lstrip_no_space s H).
  now apply rstrip_no_space.
Qed.

Lemma digits_no_space d : no_space (NilEmpty.string_of_uint d) = true.
Proof. induction d; simpl; auto. Qed.

Lemma parse_digits_uint d acc :
  parse_digits (NilEmpty.string_of_uint d) false acc = Some (uint_value d acc).
Proof.
  revert acc. induction d; intros acc; simpl; auto.
Qed.

Lemma of_uint_acc_value d acc :
  Z.pos (Pos.of_uint_acc d acc) = uint_value d (Z.pos acc).
Proof.
  revert acc. induction d; intros acc; simpl; auto; rewrite IHd; f_equal; lia.
Qed.

Lemma of_uint_value d : Z.of_uint d = uint_value d 0.
Proof.
  unfold Z.of_uint.
  induction d; simpl; auto; rewrite of_uint_acc_value; reflexivity.
Qed.

Lemma parse_unsigned_uint d :
  d <> Decimal.Nil ->
  parse_unsigned (NilEmpty.string_of_uint d) = Some (Z.of_uint d).
Proof.
  intros Hd. rewrite of_uint_value, <- parse_digits_uint.
  destruct d; [congruence | reflexivity ..].
Qed.

Lemma parse_signed_digits d :
  d <> Decimal.Nil ->
  parse_signed (NilEmpty.string_of_uint d) = parse_unsigned (NilEmpty.string_of_uint d).
Proof. intros Hd. destruct d; [congruence | reflexivity ..]. Qed.

Lemma nilzero_nonnil d :
  d <> Decimal.Nil -> NilZero.string_of_uint d = NilEmpty.string_of_uint d.
Proof. destruct d; [congruence | reflexivity ..]. Qed.

Lemma str_no_space n : no_space (str n) = true.
Proof.
  unfold str. destruct n as [|p|p]; simpl; [reflexivity | |].
  - rewrite nilzero_nonnil by apply DecimalPos.Unsigned.to_uint_nonnil.
    apply digits_no_space.
  - rewrite nilzero_nonnil by apply DecimalPos.Unsigned.to_uint_nonnil.
    apply digits_no_space.
Qed.

Lemma parse_signed_str n : parse_signed (str n) = Some n.
Proof.
  unfold str. destruct n as [|p|p]; simpl; [reflexivity | |].
  - rewrite nilzero_nonnil by apply DecimalPos.Unsigned.to_uint_nonnil.
    rewrite parse_signed_digits by apply DecimalPos.Unsigned.to_uint_nonnil.
    rewrite parse_unsigned_uint by apply DecimalPos.Unsigned.to_uint_nonnil.
    unfold Z.of_uint. now rewrite DecimalPos.Unsigned.of_to.
  - rewrite nilzero_nonnil by apply DecimalPos.Unsigned.to_uint_nonnil.
    rewrite parse_unsigned_uint by apply DecimalPos.Unsigned.to_uint_nonnil.
    unfold Z.of_uint. now rewrite DecimalPos.Unsigned.of_to.
Qed.

Lemma int_str n : int (str n) = Some n.
Proof.
  unfold int. rewrite strip_no_space by apply str_no_space.
  apply parse_signed_str.
Qed.


End PyTextFacts.

(** ** The instance lock and the lifecycle *)

(** Unfolds the monad and the primitive operations, and uses what is
    known about the lock file. *)
Ltac run :=
  repeat progress
    (cbv beta iota delta
       [create_session_file write_text os_remove path_exists read_text
        py_int os_kill0 logger get_application put_application
        except_Exception try_except try_finally call reply_text external
        bind ret raise is_OSError is_ValueError orb];
     simpl;
     try match goal with
         | H : fs ?w !! ?p = _ |- context [fs ?w !! ?p] => rewrite H
         end).

Section LockFacts.

Variable E : env.

Lemma remove_session_file_eq w :
  remove_session_file w = (Ret tt, released w).
Proof.
  unfold remove_session_file, released. run.
  destruct (fs w !! SESSION_FILE) eqn:H; run; rewrite ?H; reflexivity.
Qed.

Lemma released_fs w : fs (released w) = delete SESSION_FILE (fs w).
Proof.
  unfold released. destruct (fs w !! SESSION_FILE) eqn:H; simpl; auto.
  symmetry. now apply delete_id.
Qed.

Lemma released_absent w : fs (released w) !! SESSION_FILE = None.
Proof. rewrite released_fs. apply lookup_delete_eq. Qed.

Lemma released_log w : log (released w) = log w.
Proof. unfold released. now destruct (fs w !! SESSION_FILE). Qed.

Lemma released_application w : application (released w) = application w.
Proof. unfold released. now destruct (fs w !! SESSION_FILE). Qed.

Lemma released_shutdown_event w :
  shutdown_event (released w) = shutdown_event w.
Proof. unfold released. now destruct (fs w !! SESSION_FILE). Qed.

Lemma released_trace w :
  trace (released w) = (trace w ++ removal w)%list.
Proof.
  unfold released, removal. destruct (fs w !! SESSION_FILE); simpl; auto.
  now rewrite app_nil_r.
Qed.


Lemma released_id w : fs w !! SESSION_FILE = None -> released w = w.
Proof. intros H. unfold released. now rewrite H. Qed.

(** [check_existing_session], case by case. *)
Lemma check_existing_session_eq w :
  check_existing_session E w =
  match fs w !! SESSION_FILE with
  | None => (Ret false, w)
  | Some Unreadable =>
      (Ret false, released (add_log (SessionReadError (OSError EACCES)) w))
  | Some (Text s) =>
      match PyText.int (PyText.strip s) with
      | None => (Ret false, released (add_log (SessionReadError ValueError) w))
      | Some pid =>
          match kill0 E pid with
          | None => (Ret true, add_log (SessionFound pid) w)
          | Some e =>
              if is_OSError e then (Ret false, released w)
              else if is_ValueError e
                   then (Ret false, released (add_log (SessionReadError e) w))
                   else (Raise e, w)
          end
      end
  end.
Proof.
  unfold check_existing_session, released. run.
  destruct (fs w !! SESSION_FILE) as [[|s]|] eqn:Hf; run; rewrite ?Hf; auto.
  destruct (PyText.int (PyText.strip s)) as [pid|]; run; rewrite ?Hf; auto.
  destruct (kill0 E pid) as [e|]; run; auto.
  destruct e; run; rewrite ?Hf; auto.
Qed.

Lemma create_session_file_eq w :
  create_session_file E w =
  (Ret tt, add_event (FsWrite SESSION_FILE (PyText.str (getpid E)))
             (set_fs (<[SESSION_FILE := Text (PyText.str (getpid E))]> (fs w)) w)).
Proof. reflexivity. Qed.


(** *** [stop] *)

Ltac stop_case calls msgs :=
  eexists _, calls, msgs; rewrite remove_session_file_eq;
  split; [reflexivity|];
  rewrite released_fs, released_log, released_trace, released_application,
    released_shutdown_event;
  unfold removal; simpl; rewrite <- ?app_assoc; simpl;
  repeat (split; [solve [reflexivity | assumption]|]).

Ltac stop_failed pre c e rest :=
  right; exists pre, c, e;
  split; [reflexivity|];
  split; [now exists rest|];
  split; [simpl; rewrite ?app_nil_r; assumption | reflexivity].

(** The shape of every run of [stop]: the calls to the library come
    first, up to the first one that raises; one record tells how they
    went; the lock file is removed last. *)
Lemma stop_shape w :
  exists w' calls msgs,
    stop E w = (Ret tt, w') /\
    fs w' = delete SESSION_FILE (fs w) /\
    log w' = (log w ++ Stopping :: msgs)%list /\
    trace w' = (trace w ++ (Lib <$> calls) ++ removal w)%list /\
    application w' = application w /\
    shutdown_event w' = true /\
    match application w with
    | None => calls = [] /\ msgs = []
    | Some a =>
        (calls = stop_sequence a /\ msgs = [StoppedOk]) \/
        (exists pre c e,
            calls = (pre ++ [c])%list /\
            calls `prefix_of` stop_sequence a /\
            lib E (trace w ++ (Lib <$> pre)) (Lib c) = Some e /\
            msgs = [StopFailed e])
    end.
Proof.
  unfold stop, stop_sequence. run.
  destruct (application w) as [[[] hs]|] eqn:Ha; run.
  - destruct (lib E (trace w) (Lib UpdaterStop)) as [e|] eqn:H1; run.
    { stop_case [UpdaterStop] [StopFailed e].
      stop_failed (@nil lib_call) UpdaterStop e [AppStop; AppShutdown]. }
    destruct (lib E (trace w ++ [Lib UpdaterStop]) (Lib AppStop))
      as [e|] eqn:H2; run.
    { stop_case [UpdaterStop; AppStop] [StopFailed e].
      stop_failed [UpdaterStop] AppStop e [AppShutdown]. }
    destruct (lib E ((trace w ++ [Lib UpdaterStop]) ++ [Lib AppStop])
                (Lib AppShutdown)) as [e|] eqn:H3; run.
    { stop_case [UpdaterStop; AppStop; AppShutdown] [StopFailed e].
      rewrite <- app_assoc in H3.
      stop_failed [UpdaterStop; AppStop] AppShutdown e (@nil lib_call). }
    stop_case [UpdaterStop; AppStop; AppShutdown] [StoppedOk]. now left.
  - destruct (lib E (trace w) (Lib AppStop)) as [e|] eqn:H2; run.
    { stop_case [AppStop] [StopFailed e].
      stop_failed (@nil lib_call) AppStop e [AppShutdown]. }
    destruct (lib E (trace w ++ [Lib AppStop]) (Lib AppShutdown))
      as [e|] eqn:H3; run.
    { stop_case [AppStop; AppShutdown] [StopFailed e].
      stop_failed [AppStop] AppShutdown e (@nil lib_call). }
    stop_case [AppStop; AppShutdown] [StoppedOk]. now left.
  - stop_case (@nil lib_call) (@nil log_msg). auto.
Qed.

Lemma stop_returns w :
  exists w', stop E w = (Ret tt, w') /\
             fs w' = delete SESSION_FILE (fs w) /\
             application w' = application w /\
             shutdown_event w' = true.
Proof.
  destruct (stop_shape w) as (w' & calls & msgs & H & Hfs & _ & _ & Ha & Hs & _).
  eauto.
Qed.


(** *** [start] *)

Lemma getattr_start_command :
  getattr_self "start_command" = ret "start_command".
Proof. reflexivity. Qed.

(** The class has no method [help_command]. *)
Lemma getattr_help_command : getattr_self "help_command" = raise AttributeError.
Proof. reflexivity. Qed.

Ltac run_start :=
  repeat progress
    (run; cbv beta iota delta [add_handler]; simpl;
     rewrite ?getattr_start_command, ?getattr_help_command,
       ?remove_session_file_eq).

Ltac start_case tl msgs :=
  eexists _, tl, msgs; split; [reflexivity|];
  rewrite released_fs, released_log, released_trace;
  unfold removal; simpl; rewrite ?lookup_insert_eq, <- ?app_assoc; simpl;
  rewrite ?delete_insert_eq; repeat split; reflexivity.

(** When no live owner is found, [start] writes the lock file, enters
    the guarded block, calls the library, and ends by returning [False]
    with the lock file removed: line 109 reads [self.help_command], which
    the class does not define. *)
Lemma start_not_held w w1 :
  check_existing_session E w = (Ret false, w1) ->
  exists w3 tl msgs,
    start E w = (Ret false, w3) /\
    fs w3 = delete SESSION_FILE (fs w1) /\
    log w3 = (log w1 ++ Starting :: msgs)%list /\
    trace w3 =
      (trace w1 ++ FsWrite SESSION_FILE (PyText.str (getpid E))
                :: Lib Build :: tl)%list.
Proof.
  intros Hc. unfold start. unfold bind at 1. rewrite Hc. run_start.
  destruct (lib E (trace w1 ++ [FsWrite SESSION_FILE (PyText.str (getpid E))])
              (Lib Build)) as [e|] eqn:HB; run_start.
  { destruct (is_Conflict e); run_start.
    - start_case [FsRemove SESSION_FILE] [ConflictError e].
    - start_case [FsRemove SESSION_FILE] [StartFailed e]. }
  match goal with
  | |- context [lib E ?t (Lib DeleteWebhook)] =>
      destruct (lib E t (Lib DeleteWebhook)) as [e|] eqn:HD
  end; run_start.
  - start_case [Lib DeleteWebhook; FsRemove SESSION_FILE]
      [WebhookFailed e; StartFailed AttributeError].
  - start_case [Lib DeleteWebhook; FsRemove SESSION_FILE]
      [WebhookDeleted; StartFailed AttributeError].
Qed.


(** When building the application raises, [start] logs the error (apart
    for [Conflict]), removes the lock file it has just written and returns
    [False]. *)
Lemma start_build_fails w e :
  fs w !! SESSION_FILE = None ->
  lib E (trace w ++ [FsWrite SESSION_FILE (PyText.str (getpid E))]) (Lib Build)
  = Some e ->
  exists w',
    start E w = (Ret false, w') /\
    fs w' !! SESSION_FILE = None /\
    log w' = (log w ++ [Starting; if is_Conflict e then ConflictError e
                                  else StartFailed e])%list.
Proof.
  intros Hf HB. unfold start. unfold bind at 1.
  rewrite check_existing_session_eq, Hf. run_start. rewrite HB. run_start.
  destruct (is_Conflict e); run_start;
    (eexists; split; [reflexivity|]);
    rewrite released_absent, released_log; simpl; rewrite <- app_assoc;
    split; reflexivity.
Qed.

(** [check_existing_session] returns or raises; it removes at most the
    lock file. *)
Lemma check_existing_session_outcome w :
  exists r w1,
    check_existing_session E w = (r, w1) /\
    r <> Hang /\
    delete SESSION_FILE (fs w1) = delete SESSION_FILE (fs w).
Proof.
  rewrite check_existing_session_eq.
  destruct (fs w !! SESSION_FILE) as [[|s]|];
    [| destruct (PyText.int (PyText.strip s)) as [pid|];
       [destruct (kill0 E pid) as [e|];
        [destruct (is_OSError e); [|destruct (is_ValueError e)]|]|]|];
    eexists _, _; (split; [reflexivity|]); (split; [discriminate|]);
    rewrite ?released_fs; simpl; rewrite ?delete_delete_eq; reflexivity.
Qed.

(** With a live owner in the lock file, [start] logs and returns
    [False]; it leaves the file as it is. *)
Lemma start_held w s pid :
  fs w !! SESSION_FILE = Some (Text s) ->
  PyText.int (PyText.strip s) = Some pid ->
  kill0 E pid = None ->
  start E w = (Ret false, add_log AlreadyRunning (add_log (SessionFound pid) w)).
Proof.
  intros Hf Hp Hk. unfold start. unfold bind at 1.
  rewrite check_existing_session_eq, Hf, Hp, Hk. reflexivity.
Qed.

(** [start] never blocks and never returns [True]. *)
Lemma start_outcome w :
  exists r w',
    start E w = (r, w') /\
    r <> Hang /\ r <> Ret true /\
    delete SESSION_FILE (fs w') = delete SESSION_FILE (fs w).
Proof.
  destruct (check_existing_session_outcome w) as (r & w1 & Hc & Hr & Hfs).
  destruct r as [[|]|e|]; [| | |congruence].
  - exists (Ret false), (add_log AlreadyRunning w1).
    unfold start. unfold bind at 1. rewrite Hc.
    repeat split; try discriminate. exact Hfs.
  - destruct (start_not_held w w1 Hc) as (w3 & tl & msgs & Hs & Hf3 & _).
    exists (Ret false), w3. repeat split; try discriminate; auto.
    now rewrite Hf3, delete_delete_eq.
  - exists (Raise e), w1.
    unfold start. unfold bind at 1. rewrite Hc.
    repeat split; try discriminate. exact Hfs.
Qed.

(** *** [main] and the script *)

(** [main] always returns, and always with the lock file removed. *)
Lemma main_returns w :
  exists w', main E w = (Ret tt, w') /\
             fs w' = delete SESSION_FILE (fs w).
Proof.
  unfold main, new_bot. unfold bind at 1.
  set (w0 := set_shutdown_event false (set_application None w)).
  destruct (start_outcome w0) as (r & w1 & Hs & Hr & _ & Hfs).
  unfold try_finally, try_except at 1, except_Exception, bind, ret, logger.
  rewrite Hs.
  destruct r as [b|e|]; [| |congruence].
  - destruct (stop_returns w1) as (w2 & H2 & Hf2 & _). rewrite H2.
    eexists; split; [reflexivity|]. now rewrite Hf2, Hfs.
  - destruct (stop_returns (add_log (MainFailed e) w1)) as (w2 & H2 & Hf2 & _).
    rewrite H2. eexists; split; [reflexivity|]. now rewrite Hf2; simpl.
Qed.

(** With the token set, the script runs to its end: the exit status is 0
    on every path, and the lock file is gone. *)
Lemma script_with_token w :
  has_token E ->
  exists w', script E w = (Some 0, w') /\
             fs w' = delete SESSION_FILE (fs w).
Proof.
  intros Ht. unfold script. rewrite bool_decide_false by exact Ht.
  destruct (main_returns w) as (w1 & Hm & Hf1).
  unfold try_finally, try_except at 1. rewrite Hm. run.
  destruct (lib E (trace w1) (Lib ShutdownAsyncgens)); run;
    match goal with
    | |- context [lib E ?t (Lib LoopClose)] =>
        destruct (lib E t (Lib LoopClose)); run
    end; eexists; (split; [reflexivity|]); simpl; exact Hf1.
Qed.

End LockFacts.

(** ** The statements of the specification *)


(** C9: [stop] removes the session lock file unconditionally.  It never
    compares the stored process id with its own: from every world
    (whether [start] succeeded, failed or was never called, whoever wrote
    the file) [stop] returns and the lock file does not exist afterwards. *)
Theorem stop_removes_lock_unconditionally (E : env) (w : world) :
  exists w',
    stop E w = (Ret tt, w') /\
    fs w' !! SESSION_FILE = None /\
    fs w' = delete SESSION_FILE (fs w).
Proof.
  destruct (stop_returns E w) as (w' & Hs & Hf & _).
  exists w'. split; [exact Hs|]. split; [|exact Hf].
  rewrite Hf. apply lookup_delete_eq.
Qed.

(** The lock file of another, live process is removed as well. *)
Example stop_removes_foreign_lock :
  fs world_A !! SESSION_FILE = Some (Text "1000") /\
  getpid env_B = 2000 /\
  (stop env_B world_A).1 = Ret tt /\
  fs (stop env_B world_A).2 !! SESSION_FILE = None.
Proof. repeat split; vm_compute; reflexivity. Qed.




(** The run of the witness: the updater raises, the record is written,
    the lock file is removed after the call. *)
Example stop_with_failing_updater :
  let r := stop env_stop_fails world_started in
  r.1 = Ret tt /\
  trace r.2 = [Lib UpdaterStop; FsRemove SESSION_FILE] /\
  log r.2 = [Stopping; StopFailed RuntimeError] /\
  fs r.2 !! SESSION_FILE = None.
Proof. repeat split; vm_compute; reflexivity. Qed.

(** C6: if the required token is absent or empty, the process exits
    with status 1 before any lock or transport activity: the only effect
    is the error record; no file is written or removed, no library call
    is made, and no lock file is created. *)
Theorem missing_token_exits_1 (E : env) (w : world) :
  environ E !! "BOT_TOKEN" = None \/ environ E !! "BOT_TOKEN" = Some "" ->
  script E w = (Some 1, add_log TokenMissing w) /\
  fs (script E w).2 = fs w /\
  trace (script E w).2 = trace w /\
  (fs w !! SESSION_FILE = None -> fs (script E w).2 !! SESSION_FILE = None).
Proof.
  intros Ht.
  assert (Hs : script E w = (Some 1, add_log TokenMissing w)).
  { unfold script. destruct Ht as [Ht|Ht]; rewrite Ht; reflexivity. }
  rewrite Hs. repeat split. auto.
Qed.

Lemma missing_token_exits_1_witness :
  (environ env_no_token !! "BOT_TOKEN" = None \/
   environ env_no_token !! "BOT_TOKEN" = Some "") /\
  script env_no_token world_empty = (Some 1, add_log TokenMissing world_empty) /\
  fs (script env_no_token world_empty).2 = fs world_empty /\
  trace (script env_no_token world_empty).2 = trace world_empty /\
  (fs world_empty !! SESSION_FILE = None ->
   fs (script env_no_token world_empty).2 !! SESSION_FILE = None).
Proof.
  assert (H : environ env_no_token !! "BOT_TOKEN" = None \/
              environ env_no_token !! "BOT_TOKEN" = Some "")
    by (left; reflexivity).
  split; [exact H|].
  exact (missing_token_exits_1 env_no_token world_empty H).
Defined.



(** C3: if the lock file exists but its process id does not belong to a
    live process (the probe raises "no such process"), acquisition
    succeeds: the stale file is deleted, a new lock file with the current
    process id replaces it, and [start] goes on to build the
    application. *)
Theorem stale_lock_reclaimed (E : env) (w : world) (s : string) (pid : Z) :
  fs w !! SESSION_FILE = Some (Text s) ->
  PyText.int (PyText.strip s) = Some pid ->
  kill0 E pid = Some (OSError ESRCH) ->
  exists w1 w2 tl,
    check_existing_session E w = (Ret false, w1) /\
    fs w1 = delete SESSION_FILE (fs w) /\
    create_session_file E w1 = (Ret tt, w2) /\
    fs w2 = <[SESSION_FILE := Text (PyText.str (getpid E))]> (fs w) /\
    trace w2 = (trace w ++ [FsRemove SESSION_FILE;
                            FsWrite SESSION_FILE (PyText.str (getpid E))])%list /\
    trace (start E w).2 = (trace w2 ++ Lib Build :: tl)%list /\
    In Starting (log (start E w).2).
Proof.
  intros Hf Hp Hk.
  assert (Hc : check_existing_session E w = (Ret false, released w)).
  { rewrite check_existing_session_eq, Hf, Hp, Hk. reflexivity. }
  destruct (start_not_held E w _ Hc) as (w3 & tl & msgs & Hs & _ & Hl & Ht).
  eexists _, _, tl.
  split; [exact Hc|].
  split; [apply released_fs|].
  split; [apply create_session_file_eq|].
  simpl. rewrite released_fs, insert_delete_eq. split; [reflexivity|].
  rewrite released_trace. unfold removal. rewrite Hf.
  rewrite <- app_assoc. split; [reflexivity|].
  rewrite Hs. simpl. rewrite Ht, Hl, released_trace, released_log.
  unfold removal. rewrite Hf. rewrite <- !app_assoc. split; [reflexivity|].
  apply in_or_app. right. now left.
Qed.

Lemma stale_lock_reclaimed_witness :
  fs world_stale !! SESSION_FILE = Some (Text "4242") /\
  PyText.int (PyText.strip "4242") = Some 4242 /\
  kill0 env_B 4242 = Some (OSError ESRCH) /\
  exists w1 w2 tl,
    check_existing_session env_B world_stale = (Ret false, w1) /\
    fs w1 = delete SESSION_FILE (fs world_stale) /\
    create_session_file env_B w1 = (Ret tt, w2) /\
    fs w2 = <[SESSION_FILE := Text (PyText.str (getpid env_B))]>
              (fs world_stale) /\
    trace w2 = (trace world_stale ++
                  [FsRemove SESSION_FILE;
                   FsWrite SESSION_FILE (PyText.str (getpid env_B))])%list /\
    trace (start env_B world_stale).2 = (trace w2 ++ Lib Build :: tl)%list /\
    In Starting (log (start env_B world_stale).2).
Proof.
  split; [reflexivity|]. split; [reflexivity|]. split; [reflexivity|].
  apply (stale_lock_reclaimed env_B world_stale "4242" 4242); reflexivity.
Defined.

(** C8: the handlers.  A "start" command is answered with the fixed
    greeting; a text message [t] is answered with the echo template
    applied to [t]; after a handler has raised, [error_handler] sends the
    fixed apology to the chat of the message and never raises itself: a
    failure of that send is only logged. *)
Theorem handler_replies (E : env) (w : world) (u : update) (m : message) :
  (upd_message u = Some m ->
   trace (start_command E u w).2 = (trace w ++ [Reply (chat m) GREETING])%list) /\
  (forall t, upd_message u = Some m -> text m = Some t ->
   trace (handle_message E u w).2
   = (trace w ++ [Reply (chat m) (ECHO_PREFIX ++ t)])%list) /\
  (forall err, effective_message u = Some m ->
   exists w',
     error_handler E (Some u) err w = (Ret tt, w') /\
     trace w' = (trace w ++ [Reply (chat m) APOLOGY])%list /\
     match lib E (trace w) (Reply (chat m) APOLOGY) with
     | None => log w' = (log w ++ [UpdateError err])%list
     | Some e => log w' = (log w ++ [UpdateError err; ApologyFailed e])%list
     end).
Proof.
  split; [|split].
  - intros Hm. unfold start_command. rewrite Hm. run.
    now destruct (lib E (trace w) (Reply (chat m) GREETING)).
  - intros t Hm Ht. unfold handle_message. rewrite Hm, Ht. run.
    now destruct (lib E (trace w) (Reply (chat m) (ECHO_PREFIX ++ t))).
  - intros err Hm. unfold error_handler. rewrite Hm. run.
    destruct (lib E (trace w) (Reply (chat m) APOLOGY)); run;
      eexists; (split; [reflexivity|]); simpl;
      rewrite <- ?app_assoc; split; reflexivity.
Qed.

Lemma handler_replies_witness :
  upd_message update_foo = Some msg_foo /\
  text msg_foo = Some "foo" /\
  effective_message update_foo = Some msg_foo /\
  trace (start_command env_B update_foo world_empty).2 = [Reply 7 GREETING] /\
  trace (handle_message env_B update_foo world_empty).2
  = [Reply 7 (ECHO_PREFIX ++ "foo")] /\
  exists w',
    error_handler env_B (Some update_foo) ValueError world_empty = (Ret tt, w') /\
    trace w' = [Reply 7 APOLOGY] /\
    log w' = [UpdateError ValueError].
Proof.
  destruct (handler_replies env_B world_empty update_foo msg_foo)
    as (Hs & He & Hx).
  split; [reflexivity|]. split; [reflexivity|]. split; [reflexivity|].
  split; [exact (Hs eq_refl)|].
  split; [exact (He "foo" eq_refl eq_refl)|].
  destruct (Hx ValueError eq_refl) as (w' & Hr & Ht & Hl).
  exists w'. split; [exact Hr|]. split; [exact Ht|]. exact Hl.
Defined.

(** C1, at the run of the scenario: process 1000 is alive and owns the
    lock file, process 2000 starts the script.  [start] returns [False]
    and leaves the file alone, but the [finally] clause of [main] calls
    [stop], which deletes the file of process 1000; the script then exits
    with status 0. *)
Theorem contended_start_deletes_owner_lock :
  lock_held env_B world_A /\
  fs world_A !! SESSION_FILE = Some (Text "1000") /\
  (start env_B world_A).1 = Ret false /\
  fs (start env_B world_A).2 !! SESSION_FILE = Some (Text "1000") /\
  fs (main env_B world_A).2 !! SESSION_FILE = None /\
  (script env_B world_A).1 = Some 0 /\
  fs (script env_B world_A).2 !! SESSION_FILE = None /\
  trace (script env_B world_A).2
  = [FsRemove SESSION_FILE; Lib ShutdownAsyncgens; Lib LoopClose].
Proof.
  split.
  { exists "1000", 1000. repeat split; reflexivity. }
  repeat split; vm_compute; reflexivity.
Qed.

(** C2, refuted as stated: with the lock held by the live process 1000
    the script exits with status 0, not with a non-zero status. *)
Lemma lock_held_exit_status_zero :
  has_token env_B /\
  lock_held env_B world_A /\
  (script env_B world_A).1 = Some 0 /\
  ~ exits_nonzero (script env_B world_A).
Proof.
  assert (H0 : (script env_B world_A).1 = Some 0) by (vm_compute; reflexivity).
  split; [vm_compute; discriminate|].
  split; [exists "1000", 1000; repeat split; reflexivity|].
  split; [exact H0|].
  intros (c & Hc & Hnz). rewrite H0 in Hc. congruence.
Qed.

(** C2, amended: once the token check is passed the exit status is 0 on
    every run: on a clean shutdown, and equally when startup fails (the
    lock is held by a live process, or the transport raises during
    initialization, [Conflict] included).  [start] reports such a failure
    by returning [False], which [main] drops. *)
Theorem exit_status_zero_with_token (E : env) (w : world) :
  has_token E ->
  (script E w).1 = Some 0 /\
  ~ exits_nonzero (script E w) /\
  (lock_held E w -> (start E w).1 = Ret false) /\
  (forall e, fs w !! SESSION_FILE = None ->
             lib E (trace w ++ [FsWrite SESSION_FILE (PyText.str (getpid E))])
               (Lib Build) = Some e ->
             (start E w).1 = Ret false /\
             In (if is_Conflict e then ConflictError e else StartFailed e)
                (log (start E w).2)).
Proof.
  intros Ht.
  destruct (script_with_token E w Ht) as (w' & Hs & _).
  split; [now rewrite Hs|].
  split; [intros (c & Hc & Hnz); rewrite Hs in Hc; simpl in Hc; congruence|].
  split.
  - intros (s & pid & Hf & Hp & Hk). now rewrite (start_held E w s pid).
  - intros e Hf HB.
    destruct (start_build_fails E w e Hf HB) as (w3 & H3 & _ & Hl).
    rewrite H3. split; [reflexivity|]. simpl. rewrite Hl.
    apply in_or_app. right. right. now left.
Qed.

Lemma exit_status_zero_with_token_witness :
  has_token env_B /\
  (script env_B world_A).1 = Some 0 /\
  ~ exits_nonzero (script env_B world_A) /\
  (lock_held env_B world_A -> (start env_B world_A).1 = Ret false) /\
  (forall e, fs world_A !! SESSION_FILE = None ->
             lib env_B
               (trace world_A ++
                  [FsWrite SESSION_FILE (PyText.str (getpid env_B))])
               (Lib Build) = Some e ->
             (start env_B world_A).1 = Ret false /\
             In (if is_Conflict e then ConflictError e else StartFailed e)
                (log (start env_B world_A).2)).
Proof.
  assert (H : has_token env_B) by (vm_compute; discriminate).
  split; [exact H|].
  exact (exit_status_zero_with_token env_B world_A H).
Defined.

(** ** Further properties of the program *)

(** *** White space around the process id *)

Module StripFacts.
Import PyText.

Lemma append_cons c (s t : string) : String c s ++ t = String c (s ++ t).
Proof. reflexivity. Qed.

Lemma append_empty_l (t : string) : "" ++ t = t.
Proof. reflexivity. Qed.

Lemma append_empty_r (s : string) : s ++ "" = s.
Proof.
  induction s as [|c s IH]; [reflexivity|]. now rewrite append_cons, IH.
Qed.

Lemma lstrip_all_space a t : all_space a = true -> lstrip (a ++ t) = lstrip t.
Proof.
  induction a as [|c a IH]; [reflexivity|].
  rewrite append_cons. simpl.
  intros H. apply andb_true_iff in H as [Hc Ha]. rewrite Hc. now apply IH.
Qed.

Lemma rstrip_all_space b : all_space b = true -> rstrip b = "".
Proof.
  induction b as [|c b IH]; simpl; [reflexivity|].
  intros H. apply andb_true_iff in H as [Hc Hb]. now rewrite (IH Hb), Hc.
Qed.

Lemma rstrip_app_all_space t b :
  all_space b = true -> rstrip (t ++ b) = rstrip t.
Proof.
  intros Hb. induction t as [|c t IH].
  - rewrite append_empty_l. now apply rstrip_all_space.
  - rewrite append_cons. simpl. now rewrite IH.
Qed.

Lemma lstrip_app_no_space t b :
  no_space t = true -> all_space b = true ->
  rstrip (lstrip (t ++ b)) = t.
Proof.
  intros Ht Hb. destruct t as [|c t].
  - rewrite append_empty_l, <- (append_empty_r b).
    rewrite lstrip_all_space by exact Hb. reflexivity.
  - assert (Hl : lstrip (String c t ++ b) = String c t ++ b).
    { rewrite append_cons. simpl in *. apply andb_true_iff in Ht as [Hc _].
      apply negb_true_iff in Hc. now rewrite Hc. }
    rewrite Hl, rstrip_app_all_space by exact Hb.
    now apply PyTextFacts.rstrip_no_space.
Qed.

(** Surrounding white space is dropped by [strip]. *)
Lemma strip_padded a t b :
  all_space a = true -> no_space t = true -> all_space b = true ->
  strip (a ++ t ++ b) = t.
Proof.
  intros Ha Ht Hb. unfold strip. rewrite lstrip_all_space by exact Ha.
  now apply lstrip_app_no_space.
Qed.

Lemma strip_all_space s : all_space s = true -> strip s = "".
Proof.
  intros Hs. unfold strip. rewrite <- (append_empty_r s).
  now rewrite lstrip_all_space.
Qed.

Lemma int_padded_str a n b :
  all_space a = true -> all_space b = true ->
  int (strip (a ++ str n ++ b)) = Some n.
Proof.
  intros Ha Hb.
  rewrite strip_padded by (auto using PyTextFacts.str_no_space).
  apply PyTextFacts.int_str.
Qed.

Lemma int_blank s : all_space s = true -> int (strip s) = None.
Proof. intros Hs. now rewrite strip_all_space. Qed.

End StripFacts.

(** *** The lifecycle, in more detail *)

Section LifecycleFacts.

Variable E : env.

Ltac run_start :=
  repeat progress
    (run; cbv beta iota delta [add_handler]; simpl;
     rewrite ?getattr_start_command, ?getattr_help_command,
       ?remove_session_file_eq).

(** The run of [start] once no live owner has been found.  It ends at
    the first failing step: building the application, or reading
    [self.help_command] at line 109. *)
Lemma start_acquired w w1 :
  check_existing_session E w = (Ret false, w1) ->
  exists w3,
    start E w = (Ret false, w3) /\
    fs w3 = delete SESSION_FILE (fs w1) /\
    shutdown_event w3 = shutdown_event w1 /\
    let t2 := (trace w1 ++ [FsWrite SESSION_FILE (PyText.str (getpid E))])%list in
    match lib E t2 (Lib Build) with
    | Some e =>
        trace w3 = (t2 ++ [Lib Build; FsRemove SESSION_FILE])%list /\
        log w3 = (log w1 ++ [Starting; if is_Conflict e then ConflictError e
                                       else StartFailed e])%list /\
        application w3 = application w1
    | None =>
        trace w3 = (t2 ++ [Lib Build; Lib DeleteWebhook;
                           FsRemove SESSION_FILE])%list /\
        log w3 = (log w1 ++
                    [Starting;
                     match lib E (t2 ++ [Lib Build]) (Lib DeleteWebhook) with
                     | Some e => WebhookFailed e
                     | None => WebhookDeleted
                     end;
                     StartFailed AttributeError])%list /\
        application w3 =
          Some {| updater := true;
                  handlers := [(CommandHandler "start", "start_command")] |}
    end.
Proof.
  intros Hc. unfold start. unfold bind at 1. rewrite Hc. run_start.
  destruct (lib E (trace w1 ++ [FsWrite SESSION_FILE (PyText.str (getpid E))])
              (Lib Build)) as [e|] eqn:HB; run_start.
  { destruct (is_Conflict e); run_start;
      (eexists; split; [reflexivity|]);
      rewrite released_fs, released_shutdown_event, released_trace,
        released_log, released_application;
      unfold removal; simpl; rewrite lookup_insert_eq, delete_insert_eq,
        <- ?app_assoc; simpl; repeat split; reflexivity. }
  destruct (lib E ((trace w1 ++ [FsWrite SESSION_FILE (PyText.str (getpid E))])
                     ++ [Lib Build]) (Lib DeleteWebhook))
    as [e|] eqn:HD; run_start;
    (eexists; split; [reflexivity|]);
    rewrite released_fs, released_shutdown_event, released_trace,
      released_log, released_application;
    unfold removal; simpl; rewrite lookup_insert_eq, delete_insert_eq,
      <- ?app_assoc; simpl; repeat split; reflexivity.
Qed.

(** The trace and the fields [check_existing_session] leaves. *)
Lemma check_existing_session_effects w :
  exists r w1,
    check_existing_session E w = (r, w1) /\
    r <> Hang /\
    application w1 = application w /\
    shutdown_event w1 = shutdown_event w /\
    (w1 = w \/ fs w1 !! SESSION_FILE = None \/ r = Ret true) /\
    (trace w1 = trace w \/
     (is_Some (fs w !! SESSION_FILE) /\
      trace w1 = (trace w ++ [FsRemove SESSION_FILE])%list)).
Proof.
  rewrite check_existing_session_eq.
  destruct (fs w !! SESSION_FILE) as [[|s]|] eqn:Hf;
    [| destruct (PyText.int (PyText.strip s)) as [pid|];
       [destruct (kill0 E pid) as [e|];
        [destruct (is_OSError e); [|destruct (is_ValueError e)]|]|]|];
    eexists _, _; (split; [reflexivity|]); (split; [discriminate|]);
    rewrite ?released_application, ?released_shutdown_event, ?released_trace,
      ?released_absent;
    unfold removal; simpl; rewrite ?Hf;
    repeat split; eauto.
Qed.


(** [main] is [stop] run after [start], with the record of line 209
    when [start] raised. *)
Lemma main_via_start w r w1 :
  start E (set_shutdown_event false (set_application None w)) = (r, w1) ->
  r <> Hang ->
  main E w =
  stop E (match r with Raise e => add_log (MainFailed e) w1 | _ => w1 end).
Proof.
  intros Hs Hr. unfold main, new_bot. unfold bind at 1.
  unfold try_finally, try_except at 1, except_Exception, bind, ret, logger.
  rewrite Hs.
  destruct r as [b|e|]; [| |congruence].
  - destruct (stop_returns E w1) as (w2 & H2 & _). now rewrite H2.
  - destruct (stop_returns E (add_log (MainFailed e) w1)) as (w2 & H2 & _).
    now rewrite H2.
Qed.

(** The script after the token check: [main], then the two clean-up
    calls, each in its own guard. *)
Lemma script_cleanup w :
  has_token E ->
  exists w1 w',
    main E w = (Ret tt, w1) /\
    script E w = (Some 0, w') /\
    fs w' = fs w1 /\
    trace w' = (trace w1 ++ [Lib ShutdownAsyncgens; Lib LoopClose])%list.
Proof.
  intros Ht. unfold script. rewrite bool_decide_false by exact Ht.
  destruct (main_returns E w) as (w1 & Hm & _).
  exists w1. unfold try_finally, try_except at 1. rewrite Hm. run.
  destruct (lib E (trace w1) (Lib ShutdownAsyncgens)); run;
    match goal with
    | |- context [lib E ?t (Lib LoopClose)] =>
        destruct (lib E t (Lib LoopClose)); run
    end; eexists; (split; [reflexivity|]); (split; [reflexivity|]);
    simpl; rewrite <- ?app_assoc; split; reflexivity.
Qed.

End LifecycleFacts.

(** ** Further statements *)

Ltac not_in := simpl; intuition discriminate.

(** X1: [start] never returns [True], never blocks, and never reaches
    the polling phase: whatever the environment does, the library is
    never asked to initialize, to start, or to poll, because line 109
    reads [self.help_command], which the class does not define. *)
Theorem start_never_polls (E : env) (w : world) :
  (start E w).1 <> Ret true /\
  (start E w).1 <> Hang /\
  exists evs,
    trace (start E w).2 = (trace w ++ evs)%list /\
    ~ In (Lib Initialize) evs /\
    ~ In (Lib AppStart) evs /\
    ~ In (Lib StartPolling) evs.
Proof.
  destruct (check_existing_session_effects E w)
    as (r & w1 & Hc & Hr & _ & _ & _ & Ht).
  destruct r as [[|]|e|]; [| | |congruence].
  - assert (Hs : start E w = (Ret false, add_log AlreadyRunning w1))
      by (unfold start; unfold bind at 1; now rewrite Hc).
    rewrite Hs. split; [discriminate|]. split; [discriminate|]. simpl.
    destruct Ht as [Ht | [_ Ht]]; rewrite Ht.
    + exists []. rewrite app_nil_r. split; [reflexivity|]. not_in.
    + eexists. split; [reflexivity|]. not_in.
  - destruct (start_acquired E w w1 Hc) as (w3 & Hs & _ & _ & H3).
    rewrite Hs. split; [discriminate|]. split; [discriminate|]. simpl.
    cbv zeta in H3.
    destruct (lib E _ (Lib Build)); destruct H3 as (H3 & _); rewrite H3;
      (destruct Ht as [Ht | [_ Ht]]; rewrite Ht; rewrite <- ?app_assoc;
       eexists; (split; [reflexivity|]); not_in).
  - assert (Hs : start E w = (Raise e, w1))
      by (unfold start; unfold bind at 1; now rewrite Hc).
    rewrite Hs. split; [discriminate|]. split; [discriminate|]. simpl.
    destruct Ht as [Ht | [_ Ht]]; rewrite Ht.
    + exists []. rewrite app_nil_r. split; [reflexivity|]. not_in.
    + eexists. split; [reflexivity|]. not_in.
Qed.

(** X2: every [OSError] of the probe counts as "process gone",
    permission denied included: the lock file is removed without a log
    record and no other session is reported. *)
Theorem probe_oserror_reclaims (E : env) (w : world) (s : string)
    (pid : Z) (n : errno) :
  fs w !! SESSION_FILE = Some (Text s) ->
  PyText.int (PyText.strip s) = Some pid ->
  kill0 E pid = Some (OSError n) ->
  exists w1,
    check_existing_session E w = (Ret false, w1) /\
    fs w1 !! SESSION_FILE = None /\
    log w1 = log w /\
    trace w1 = (trace w ++ [FsRemove SESSION_FILE])%list.
Proof.
  intros Hf Hp Hk. exists (released w).
  rewrite check_existing_session_eq, Hf, Hp, Hk.
  split; [reflexivity|].
  rewrite released_absent, released_log, released_trace.
  unfold removal. rewrite Hf. repeat split.
Qed.

Lemma probe_oserror_reclaims_witness :
  fs world_A !! SESSION_FILE = Some (Text "1000") /\
  PyText.int (PyText.strip "1000") = Some 1000 /\
  kill0 env_probe_denied 1000 = Some (OSError EPERM) /\
  exists w1,
    check_existing_session env_probe_denied world_A = (Ret false, w1) /\
    fs w1 !! SESSION_FILE = None /\
    log w1 = log world_A /\
    trace w1 = (trace world_A ++ [FsRemove SESSION_FILE])%list.
Proof.
  split; [reflexivity|]. split; [reflexivity|]. split; [reflexivity|].
  apply (probe_oserror_reclaims env_probe_denied world_A "1000" 1000 EPERM);
    reflexivity.
Defined.

(** X3: an exception of the probe that is neither an [OSError] nor a
    [ValueError] (an [OverflowError] for an id that does not fit) is not
    caught in [check_existing_session] nor in [start]: both raise it and
    change nothing.  [main] catches it, logs it, and [stop] removes the
    lock file. *)
Theorem probe_exception_escapes (E : env) (w : world) (s : string)
    (pid : Z) (e : exn) :
  fs w !! SESSION_FILE = Some (Text s) ->
  PyText.int (PyText.strip s) = Some pid ->
  kill0 E pid = Some e ->
  is_OSError e = false ->
  is_ValueError e = false ->
  check_existing_session E w = (Raise e, w) /\
  start E w = (Raise e, w) /\
  exists w',
    main E w = (Ret tt, w') /\
    log w' = (log w ++ [MainFailed e; Stopping])%list /\
    trace w' = (trace w ++ [FsRemove SESSION_FILE])%list /\
    fs w' !! SESSION_FILE = None.
Proof.
  intros Hf Hp Hk Ho Hv.
  assert (Hc : forall w0, fs w0 = fs w ->
                          check_existing_session E w0 = (Raise e, w0)).
  { intros w0 H0.
    now rewrite check_existing_session_eq, H0, Hf, Hp, Hk, Ho, Hv. }
  assert (Hs : forall w0, fs w0 = fs w -> start E w0 = (Raise e, w0)).
  { intros w0 H0. unfold start. unfold bind at 1. now rewrite (Hc w0 H0). }
  split; [now apply Hc|]. split; [now apply Hs|].
  set (w0 := set_shutdown_event false (set_application None w)).
  rewrite (main_via_start E w (Raise e) w0) by (auto; discriminate).
  destruct (stop_shape E (add_log (MainFailed e) w0))
    as (w' & calls & msgs & H1 & Hfs & Hl & Ht & _ & _ & Hm).
  simpl in Hm. destruct Hm as [-> ->].
  exists w'. split; [exact H1|].
  rewrite Hl, Ht, Hfs. unfold removal. simpl. rewrite Hf, <- app_assoc.
  repeat split. apply lookup_delete_eq.
Qed.

Lemma probe_exception_escapes_witness :
  fs world_huge !! SESSION_FILE = Some (Text "99999999999999999999") /\
  PyText.int (PyText.strip "99999999999999999999")
  = Some 99999999999999999999 /\
  kill0 env_probe_overflow 99999999999999999999 = Some OverflowError /\
  is_OSError OverflowError = false /\
  is_ValueError OverflowError = false /\
  check_existing_session env_probe_overflow world_huge
  = (Raise OverflowError, world_huge) /\
  start env_probe_overflow world_huge = (Raise OverflowError, world_huge) /\
  exists w',
    main env_probe_overflow world_huge = (Ret tt, w') /\
    log w' = (log world_huge ++ [MainFailed OverflowError; Stopping])%list /\
    trace w' = (trace world_huge ++ [FsRemove SESSION_FILE])%list /\
    fs w' !! SESSION_FILE = None.
Proof.
  do 5 (split; [reflexivity|]).
  apply (probe_exception_escapes env_probe_overflow world_huge
           "99999999999999999999" 99999999999999999999);
    reflexivity.
Defined.

(** X4: [check_existing_session] reports another session exactly when
    the lock file holds the id of a process that answers the probe; it
    then leaves the file, the trace and the bot as they are and logs one
    warning. *)
Theorem check_true_iff_lock_held (E : env) (w : world) :
  ((check_existing_session E w).1 = Ret true <-> lock_held E w) /\
  ((check_existing_session E w).1 = Ret true ->
   exists pid,
     (check_existing_session E w).2 = add_log (SessionFound pid) w /\
     level_of (SessionFound pid) = WARNING).
Proof.
  rewrite check_existing_session_eq.
  destruct (fs w !! SESSION_FILE) as [[|s]|] eqn:Hf.
  - split; [split|]; try discriminate.
    intros (s & pid & Hs & _). congruence.
  - destruct (PyText.int (PyText.strip s)) as [pid|] eqn:Hp.
    + destruct (kill0 E pid) as [e|] eqn:Hk.
      * assert (Hn : (if is_OSError e then (Ret false, released w)
                      else if is_ValueError e
                           then (Ret false,
                                 released (add_log (SessionReadError e) w))
                           else (Raise e, w)).1 <> Ret true)
          by (destruct (is_OSError e); [|destruct (is_ValueError e)];
              discriminate).
        split; [split|]; try (intros H; now destruct (Hn H)).
        intros (s' & pid' & Hs & Hp' & Hk'). congruence.
      * split; [split; [intros _; now exists s, pid | reflexivity]|].
        intros _. now exists pid.
    + split; [split|]; try discriminate.
      intros (s' & pid & Hs & Hp' & _). congruence.
  - split; [split|]; try discriminate.
    intros (s & pid & Hs & _). congruence.
Qed.



(** X6: with the lock held by a live process [start] performs no
    external action at all: no file is written or removed, no library
    call is made, the bot is unchanged; it logs the warning and the error
    and returns [False]. *)
Theorem start_held_untouched (E : env) (w : world) :
  lock_held E w ->
  exists pid w',
    start E w = (Ret false, w') /\
    fs w' = fs w /\
    trace w' = trace w /\
    application w' = application w /\
    shutdown_event w' = shutdown_event w /\
    log w' = (log w ++ [SessionFound pid; AlreadyRunning])%list.
Proof.
  intros (s & pid & Hf & Hp & Hk).
  exists pid. eexists. split; [now apply (start_held E w s pid)|].
  simpl. rewrite <- app_assoc. repeat split.
Qed.

Lemma start_held_untouched_witness :
  lock_held env_B world_A /\
  exists pid w',
    start env_B world_A = (Ret false, w') /\
    fs w' = fs world_A /\
    trace w' = trace world_A /\
    application w' = application world_A /\
    shutdown_event w' = shutdown_event world_A /\
    log w' = (log world_A ++ [SessionFound pid; AlreadyRunning])%list.
Proof.
  assert (H : lock_held env_B world_A)
    by (exists "1000", 1000; repeat split; reflexivity).
  split; [exact H|].
  exact (start_held_untouched env_B world_A H).
Defined.





(** X9: once the application is built, [start] always ends the same
    way.  Clearing the webhook may fail, which is logged below ERROR and
    ignored; the "start" handler is registered; reading
    [self.help_command] raises [AttributeError]; the error is logged, the
    lock file just written is removed and [start] returns [False].  No
    other handler is ever registered. *)
Theorem start_fails_at_help_command (E : env) (w w1 : world) :
  check_existing_session E w = (Ret false, w1) ->
  lib E (trace w1 ++ [FsWrite SESSION_FILE (PyText.str (getpid E))])
    (Lib Build) = None ->
  exists w3 m,
    start E w = (Ret false, w3) /\
    application w3 =
      Some {| updater := true;
              handlers := [(CommandHandler "start", "start_command")] |} /\
    log w3 = (log w1 ++ [Starting; m; StartFailed AttributeError])%list /\
    (m = WebhookDeleted \/ exists e, m = WebhookFailed e) /\
    level_of m <> ERROR /\
    trace w3 = (trace w1 ++
                  [FsWrite SESSION_FILE (PyText.str (getpid E)); Lib Build;
                   Lib DeleteWebhook; FsRemove SESSION_FILE])%list /\
    fs w3 !! SESSION_FILE = None.
Proof.
  intros Hc HB.
  destruct (start_acquired E w w1 Hc) as (w3 & Hs & Hf & _ & H3).
  cbv zeta in H3. rewrite HB in H3. destruct H3 as (Ht & Hl & Ha).
  exists w3. eexists. split; [exact Hs|]. split; [exact Ha|].
  split; [exact Hl|].
  split; [destruct (lib E _ (Lib DeleteWebhook)); eauto|].
  split; [destruct (lib E _ (Lib DeleteWebhook)); discriminate|].
  split; [now rewrite Ht, <- app_assoc|].
  rewrite Hf. apply lookup_delete_eq.
Qed.

Lemma start_fails_at_help_command_witness :
  check_existing_session env_webhook_fails world_empty
  = (Ret false, world_empty) /\
  lib env_webhook_fails
    (trace world_empty ++
       [FsWrite SESSION_FILE (PyText.str (getpid env_webhook_fails))])
    (Lib Build) = None /\
  exists w3 m,
    start env_webhook_fails world_empty = (Ret false, w3) /\
    application w3 =
      Some {| updater := true;
              handlers := [(CommandHandler "start", "start_command")] |} /\
    log w3 = (log world_empty ++ [Starting; m; StartFailed AttributeError])%list /\
    (m = WebhookDeleted \/ exists e, m = WebhookFailed e) /\
    level_of m <> ERROR /\
    trace w3 = (trace world_empty ++
                  [FsWrite SESSION_FILE (PyText.str (getpid env_webhook_fails));
                   Lib Build; Lib DeleteWebhook; FsRemove SESSION_FILE])%list /\
    fs w3 !! SESSION_FILE = None.
Proof.
  split; [reflexivity|]. split; [reflexivity|].
  apply (start_fails_at_help_command env_webhook_fails world_empty world_empty);
    reflexivity.
Defined.

(** X10: without an application ([start] never built one) [stop] makes
    no library call and writes no success record: it logs that it stops,
    sets the shutdown event and removes the lock file if there is one. *)
Theorem stop_without_application (E : env) (w : world) :
  application w = None ->
  exists w',
    stop E w = (Ret tt, w') /\
    log w' = (log w ++ [Stopping])%list /\
    trace w' = (trace w ++ removal w)%list /\
    shutdown_event w' = true /\
    fs w' = delete SESSION_FILE (fs w).
Proof.
  intros Ha.
  destruct (stop_shape E w) as (w' & calls & msgs & H & Hf & Hl & Ht & _ & Hs & Hm).
  rewrite Ha in Hm. destruct Hm as [-> ->].
  exists w'. now rewrite Hl, Ht.
Qed.

Lemma stop_without_application_witness :
  application world_A = None /\
  exists w',
    stop env_B world_A = (Ret tt, w') /\
    log w' = (log world_A ++ [Stopping])%list /\
    trace w' = (trace world_A ++ removal world_A)%list /\
    shutdown_event w' = true /\
    fs w' = delete SESSION_FILE (fs world_A).
Proof.
  split; [reflexivity|].
  apply (stop_without_application env_B world_A). reflexivity.
Defined.

(** X11: [stop] keeps [self.application], so a second [stop] is not
    silent: it calls the library again (at least the first stop call) and
    logs again; only the directory stays as the first [stop] left it. *)
Theorem second_stop_calls_library (E : env) (w : world) (a : app) :
  application w = Some a ->
  exists w1 w2 calls msg,
    stop E w = (Ret tt, w1) /\
    stop E w1 = (Ret tt, w2) /\
    calls <> [] /\
    calls `prefix_of` stop_sequence a /\
    trace w2 = (trace w1 ++ (Lib <$> calls))%list /\
    log w2 = (log w1 ++ [Stopping; msg])%list /\
    fs w2 = fs w1.
Proof.
  intros Ha.
  destruct (stop_shape E w) as (w1 & c1 & m1 & H1 & Hf1 & _ & _ & Ha1 & _).
  destruct (stop_shape E w1) as (w2 & c2 & m2 & H2 & Hf2 & Hl2 & Ht2 & _ & _ & Hm).
  rewrite Ha1, Ha in Hm.
  assert (Hn : fs w1 !! SESSION_FILE = None)
    by (rewrite Hf1; apply lookup_delete_eq).
  assert (Hfs : fs w2 = fs w1) by (rewrite Hf2; now apply delete_id).
  assert (Htr : trace w2 = (trace w1 ++ (Lib <$> c2))%list).
  { rewrite Ht2. unfold removal. rewrite Hn. now rewrite app_nil_r. }
  destruct Hm as [[-> ->] | (pre & c & e & Hc & Hp & _ & ->)].
  - exists w1, w2, (stop_sequence a), StoppedOk.
    repeat split; auto. unfold stop_sequence. now destruct (updater a).
  - exists w1, w2, c2, (StopFailed e).
    repeat split; auto. rewrite Hc. now destruct pre.
Qed.

Lemma second_stop_calls_library_witness :
  application world_started = Some {| updater := true; handlers := [] |} /\
  exists w1 w2 calls msg,
    stop env_B world_started = (Ret tt, w1) /\
    stop env_B w1 = (Ret tt, w2) /\
    calls <> [] /\
    calls `prefix_of` stop_sequence {| updater := true; handlers := [] |} /\
    trace w2 = (trace w1 ++ (Lib <$> calls))%list /\
    log w2 = (log w1 ++ [Stopping; msg])%list /\
    fs w2 = fs w1.
Proof.
  split; [reflexivity|].
  apply (second_stop_calls_library env_B world_started). reflexivity.
Defined.


(** X13: after [main] the script closes the loop in two steps, each in
    its own guard: [shutdown_asyncgens] and then [close] are both called,
    in this order, also when the first raises, and the exit status is 0. *)
Theorem cleanup_after_main (E : env) (w : world) :
  has_token E ->
  exists w1 w',
    main E w = (Ret tt, w1) /\
    script E w = (Some 0, w') /\
    trace w' = (trace w1 ++ [Lib ShutdownAsyncgens; Lib LoopClose])%list.
Proof.
  intros Ht.
  destruct (script_cleanup E w Ht) as (w1 & w' & Hm & Hs & _ & Htr).
  now exists w1, w'.
Qed.

Lemma cleanup_after_main_witness :
  has_token env_B /\
  exists w1 w',
    main env_B world_empty = (Ret tt, w1) /\
    script env_B world_empty = (Some 0, w') /\
    trace w' = (trace w1 ++ [Lib ShutdownAsyncgens; Lib LoopClose])%list.
Proof.
  assert (H : has_token env_B) by (vm_compute; discriminate).
  split; [exact H|].
  exact (cleanup_after_main env_B world_empty H).
Defined.

(** X14: the script always terminates, and its exit status is decided
    by the token alone: 1 when [BOT_TOKEN] is unset or empty, 0
    otherwise. *)
Theorem exit_status_by_token (E : env) (w : world) :
  (script E w).1 =
  Some (if bool_decide (default "" (environ E !! "BOT_TOKEN") = "")
        then 1 else 0).
Proof.
  case_bool_decide as Ht.
  - unfold script. now rewrite bool_decide_true by exact Ht.
  - destruct (script_with_token E w Ht) as (w' & H & _). now rewrite H.
Qed.

(** X15: white space around the number does not matter.  A lock file
    that holds the decimal id of a live process between any white space
    (a final newline, say) is read as that id, and the other session is
    reported. *)
Theorem padded_lock_recognised (E : env) (w : world) (a b : string) (pid : Z) :
  all_space a = true ->
  all_space b = true ->
  fs w !! SESSION_FILE = Some (Text (a ++ PyText.str pid ++ b)) ->
  kill0 E pid = None ->
  PyText.int (PyText.strip (a ++ PyText.str pid ++ b)) = Some pid /\
  check_existing_session E w = (Ret true, add_log (SessionFound pid) w) /\
  lock_held E w.
Proof.
  intros Ha Hb Hf Hk.
  assert (Hp := StripFacts.int_padded_str a pid b Ha Hb).
  split; [exact Hp|]. split.
  - now rewrite check_existing_session_eq, Hf, Hp, Hk.
  - now exists (a ++ PyText.str pid ++ b), pid.
Qed.

Lemma padded_lock_recognised_witness :
  all_space "" = true /\
  all_space (String "010" "") = true /\
  fs world_newline !! SESSION_FILE
  = Some (Text ("" ++ PyText.str 1000 ++ String "010" "")) /\
  kill0 env_B 1000 = None /\
  PyText.int (PyText.strip ("" ++ PyText.str 1000 ++ String "010" ""))
  = Some 1000 /\
  check_existing_session env_B world_newline
  = (Ret true, add_log (SessionFound 1000) world_newline) /\
  lock_held env_B world_newline.
Proof.
  do 4 (split; [reflexivity|]).
  apply (padded_lock_recognised env_B world_newline "" (String "010" "") 1000);
    reflexivity.
Defined.

(** X16: an empty lock file, or one that holds white space only, is a
    malformed record: [int] raises [ValueError], the warning is logged,
    the file is removed and no other session is reported. *)
Theorem blank_lock_recovered (E : env) (w : world) (s : string) :
  all_space s = true ->
  fs w !! SESSION_FILE = Some (Text s) ->
  PyText.int (PyText.strip s) = None /\
  exists w1,
    check_existing_session E w = (Ret false, w1) /\
    log w1 = (log w ++ [SessionReadError ValueError])%list /\
    trace w1 = (trace w ++ [FsRemove SESSION_FILE])%list /\
    fs w1 !! SESSION_FILE = None.
Proof.
  intros Hs Hf.
  assert (Hp := StripFacts.int_blank s Hs).
  split; [exact Hp|]. eexists.
  rewrite check_existing_session_eq, Hf, Hp. split; [reflexivity|].
  rewrite released_log, released_trace, released_absent.
  unfold removal. simpl. rewrite Hf. repeat split.
Qed.

Lemma blank_lock_recovered_witness :
  all_space "" = true /\
  fs world_blank !! SESSION_FILE = Some (Text "") /\
  PyText.int (PyText.strip "") = None /\
  exists w1,
    check_existing_session env_B world_blank = (Ret false, w1) /\
    log w1 = (log world_blank ++ [SessionReadError ValueError])%list /\
    trace w1 = (trace world_blank ++ [FsRemove SESSION_FILE])%list /\
    fs w1 !! SESSION_FILE = None.
Proof.
  split; [reflexivity|]. split; [reflexivity|].
  apply (blank_lock_recovered env_B world_blank ""); reflexivity.
Defined.

(** X17: [error_handler] never raises, whatever the update and the
    error are.  It logs the error; it sends the apology when the update
    has an effective message, and nothing when the update is [None] or
    carries no message; it touches no file and not the bot. *)
Theorem error_handler_never_raises (E : env) (u : option update) (err : exn)
    (w : world) :
  exists w',
    error_handler E u err w = (Ret tt, w') /\
    trace w' = (trace w ++ apology_events u)%list /\
    (exists tl, log w' = (log w ++ UpdateError err :: tl)%list) /\
    (apology_events u = [] -> log w' = (log w ++ [UpdateError err])%list) /\
    fs w' = fs w /\
    application w' = application w /\
    shutdown_event w' = shutdown_event w.
Proof.
  unfold error_handler, apology_events.
  destruct u as [u|]; [destruct (effective_message u) as [m|]|]; run.
  - destruct (lib E (trace w) (Reply (chat m) APOLOGY)) as [e|]; run;
      eexists; (split; [reflexivity|]); simpl; rewrite <- ?app_assoc;
      (split; [reflexivity|]); (split; [eexists; reflexivity|]);
      (split; [discriminate|]); repeat split.
  - eexists. split; [reflexivity|]. simpl. rewrite app_nil_r.
    repeat split. now exists [].
  - eexists. split; [reflexivity|]. simpl. rewrite app_nil_r.
    repeat split. now exists [].
Qed.

(** X18: [check_existing_session] only ever reads, probes, logs and
    removes: it returns or raises, leaves the bot as it is, and its whole
    effect on the trace is at most one removal of the lock file; it never
    writes a file and never calls the library. *)
Theorem check_only_removes (E : env) (w : world) :
  exists r w1,
    check_existing_session E w = (r, w1) /\
    r <> Hang /\
    application w1 = application w /\
    shutdown_event w1 = shutdown_event w /\
    (trace w1 = trace w \/
     (is_Some (fs w !! SESSION_FILE) /\
      trace w1 = (trace w ++ [FsRemove SESSION_FILE])%list)).
Proof.
  destruct (check_existing_session_effects E w)
    as (r & w1 & H & Hr & Ha & Hs & _ & Ht).
  now exists r, w1.
Qed.


